(** * SeaStream: a typed wrapper around binary streams

    A shallow embedding of [seastream/seastream.py] and the properties its
    specification states about it.

    The Python program is dynamically typed and talks to three things that
    live outside of it: the wrapped stream object (anything with [read],
    [write] and [close]), the builtin [open], and the classes whose
    instances are read and written.  The embedding keeps all three explicit:

    - Python objects are the inductive type [pyobj]; the runtime type tests
      of the source ([isinstance], [hasattr]) are functions on it;
    - stream objects live in a store, a [PyStream h] is a reference into it,
      and every call the program makes on a stream or on [open] is appended
      to a trace, so that "exactly one call" and "no call" are statements
      about that trace;
    - a method body is a computation in a state-and-exception monad [M]
      over the store and the trace. *)

From Stdlib Require Import ZArith Lia.
From Stdlib Require Import Strings.String Strings.Ascii Strings.Byte.
From stdpp Require Import base list.

Local Open Scope string_scope.
Local Open Scope Z_scope.

(** ** Exceptions and outcomes *)

(** The exception classes that occur; each carries its message, except
    [AttributeError] which carries the name of the missing attribute. *)
Inductive exn : Type :=
| TypeError (msg : string)
| ValueError (msg : string)
| AttributeError (attr : string)
| BufferError (msg : string)
| OverflowError (msg : string)
| OSError (msg : string)
| SystemError (msg : string).

(** What a call does: it returns a value or it raises. *)
Inductive result (A : Type) : Type :=
| Returns (a : A)
| Raises (e : exn).
Arguments Returns {A} a.
Arguments Raises {A} e.

(** The outcome of [k] on what [r] returned. *)
Definition result_bind {A B : Type} (r : result A) (k : A -> result B)
  : result B :=
  match r with
  | Returns a => k a
  | Raises e => Raises e
  end.

(** ** Python objects *)

(** [bytes] objects. *)
Definition bytes : Type := list byte.

(** A bytes literal, [b "foo"] for [b"foo"]. *)
Definition b (s : string) : bytes := list_byte_of_string s.

(** Plain data: instances of the builtin types the program meets.
    [VPath p] is a [pathlib] path, the [os.PathLike] object of the tests,
    whose string form [str(path)] is [p]. *)
Inductive value : Type :=
| VNone
| VBool (v : bool)
| VInt (n : Z)
| VStr (s : string)
| VBytes (bs : bytes)
| VPath (p : string).

(** The [_struct] attribute of a readable class: an object that may have
    a [size] attribute. *)
Record Struct : Type := { size : option value }.

(** An ordinary class, one whose own type is [type], by the attributes the
    program looks at; an attribute the class does not define is [None].
    [from_bytes] is the classmethod applied to what the stream returned,
    [__bytes__] the method applied to the state of an instance. *)
Record pyclass_of (O : Type) : Type := {
  cls_name : string;
  _struct : option Struct;
  from_bytes : option (value -> result O);
  __bytes__ : option (value -> result value)
}.
Arguments cls_name {O} _.
Arguments _struct {O} _.
Arguments from_bytes {O} _.
Arguments __bytes__ {O} _.

(** Objects: plain data, class objects, instances of classes and stream
    objects (by reference into the store). *)
#[warnings="-register-all"]
Inductive pyobj : Type :=
| PyVal (v : value)
| PyType (c : pyclass_of pyobj)
| PyInstance (c : pyclass_of pyobj) (state : value)
| PyStream (h : nat).

Definition pyclass : Type := pyclass_of pyobj.

(** The name of the type of an object, as error messages print it; the
    stream objects are those of the tests, [io.BytesIO]. *)
Definition type_name (o : pyobj) : string :=
  match o with
  | PyVal VNone => "NoneType"
  | PyVal (VBool _) => "bool"
  | PyVal (VInt _) => "int"
  | PyVal (VStr _) => "str"
  | PyVal (VBytes _) => "bytes"
  | PyVal (VPath _) => "PosixPath"
  | PyType _ => "type"
  | PyInstance c _ => cls_name c
  | PyStream _ => "_io.BytesIO"
  end.

(** The largest index of the platform, [sys.maxsize] of a 64-bit build,
    and the integers that fit into an index. *)
Definition PY_SSIZE_T_MAX : Z := 2 ^ 63 - 1.

Definition fits_index (limit n : Z) : bool :=
  (- limit - 1 <=? n) && (n <=? limit).

Definition fits_ssize_t (n : Z) : bool := fits_index PY_SSIZE_T_MAX n.

Definition index_error : exn :=
  OverflowError "cannot fit 'int' into an index-sized integer".

(** ["cannot convert 'T' object to bytes"], for the type name [T]. *)
Definition cannot_convert (o : pyobj) : exn :=
  TypeError
    (String.append "cannot convert '"
       (String.append (type_name o) "' object to bytes")).

(** *** Runtime type tests *)

(** [isinstance(o, int)]; [bool] is a subclass of [int]. *)
Definition isinstance_int (o : pyobj) : bool :=
  match o with
  | PyVal (VInt _) | PyVal (VBool _) => true
  | _ => false
  end.

(** [isinstance(o, type)]. *)
Definition isinstance_type (o : pyobj) : bool :=
  match o with
  | PyType _ => true
  | _ => false
  end.

(** [isinstance(o, str)], with the string behind [o]. *)
Definition isinstance_str (o : pyobj) : option string :=
  match o with
  | PyVal (VStr s) => Some s
  | _ => None
  end.

(** [isinstance(o, VALID_PATH_TYPES)] for
    [VALID_PATH_TYPES = (bytes, str, PathLike)]. *)
Definition isinstance_VALID_PATH_TYPES (o : pyobj) : bool :=
  match o with
  | PyVal (VBytes _) | PyVal (VStr _) | PyVal (VPath _) => true
  | _ => false
  end.

(** [sub in s] on strings: [sub] occurs in [s]. *)
Definition str_in (sub s : string) : bool :=
  match index 0 sub s with
  | Some _ => true
  | None => false
  end.

(** Truth value of what [__exit__] returned. *)
Definition truthy (v : value) : bool :=
  match v with
  | VNone => false
  | VBool v => v
  | VInt n => negb (n =? 0)
  | VStr s => negb (String.eqb s "")
  | VBytes bs => match bs with [] => false | _ => true end
  | VPath _ => true
  end.

(** ** Stream objects, the store and the trace *)

(** The interface of a binary stream object, over the type [H] of its
    states: each method takes the state to an outcome and a new state. *)
Class BinaryIO (H : Type) : Type := {
  io_read : pyobj -> H -> result value * H;
  io_write : pyobj -> H -> result value * H;
  io_close : H -> result value * H
}.

(** A method call on a stream object. *)
Inductive method_call : Type :=
| MRead (arg : pyobj)
| MWrite (arg : pyobj)
| MClose.

(** What the program does to the outside: a call of the builtin [open], or
    a method call on the stream [h]. *)
Inductive event : Type :=
| EvOpen (file mode : pyobj)
| EvCall (h : nat) (c : method_call).

(** The world: the states of the stream objects, and the calls made so
    far, oldest first. *)
Record World (H : Type) : Type := {
  store : list H;
  trace : list event
}.
Arguments store {H} _.
Arguments trace {H} _.

(** Computations: from a world to an outcome and a world.  A raised
    exception keeps the world as it was when it was raised. *)
Definition M (H A : Type) : Type := World H -> result A * World H.

Definition ret {H A} (a : A) : M H A := fun w => (Returns a, w).

Definition raise {H A} (e : exn) : M H A := fun w => (Raises e, w).

Definition bind {H A B} (m : M H A) (k : A -> M H B) : M H B :=
  fun w =>
    match m w with
    | (Returns a, w') => k a w'
    | (Raises e, w') => (Raises e, w')
    end.

(** A call that needs no world: its outcome, as a computation. *)
Definition lift {H A} (r : result A) : M H A := fun w => (r, w).

Declare Scope py_scope.
Delimit Scope py_scope with py.
Notation "x <- m ;; k" := (bind m (fun x => k))
  (at level 100, m at next level, right associativity) : py_scope.
Local Open Scope py_scope.

Section Runtime.

Context {H : Type} `{BinaryIO H}.

(** The builtin [open], as the environment answers it: the state of the
    new stream object, or the exception [open] raises. *)
Variable os_open : pyobj -> pyobj -> result H.

(** Whether the builtin [bytes] type has a [__bytes__] method, as it does
    from CPython 3.11 on. *)
Variable bytes_has_dunder : bool.

Definition dispatch (c : method_call) (st : H) : result value * H :=
  match c with
  | MRead arg => io_read arg st
  | MWrite arg => io_write arg st
  | MClose => io_close st
  end.

(** The world after the call [c] on the stream object [h] left it in the
    state [st']: that object is updated and the call is logged. *)
Definition called (h : nat) (c : method_call) (st' : H) (w : World H)
  : World H :=
  {| store := <[h := st']> (store w); trace := trace w ++ [EvCall h c] |}.

(** The method call [c] on the stream object [h].  A reference outside of
    the store does not arise from [py_open]. *)
Definition invoke (h : nat) (c : method_call) : M H value :=
  fun w =>
    match store w !! h with
    | Some st =>
        let '(r, st') := dispatch c st in (r, called h c st' w)
    | None => (Raises (SystemError "dangling stream reference"), w)
    end.

(** The world after [open(file, mode=mode)]: the call is logged, and the
    stream objects [new] are added to the store. *)
Definition opened (file mode : pyobj) (new : list H) (w : World H)
  : World H :=
  {| store := store w ++ new; trace := trace w ++ [EvOpen file mode] |}.

(** [open(file, mode=mode)]: a stream object is allocated when the
    environment returns one. *)
Definition py_open (file mode : pyobj) : M H pyobj :=
  fun w =>
    match os_open file mode with
    | Returns st =>
        (Returns (PyStream (length (store w))), opened file mode [st] w)
    | Raises e => (Raises e, opened file mode [] w)
    end.

(** The bound method [o.name] of a stream object, [name] one of [read],
    [write], [close]: only stream objects have them. *)
Definition getattr_method (o : pyobj) (name : string) : M H nat :=
  match o with
  | PyStream h => ret h
  | _ => raise (AttributeError name)
  end.

(** [hasattr(o, "__bytes__")]: a class that defines [__bytes__] has the
    attribute, and so have its instances; paths have it; [bytes] objects
    have it from CPython 3.11 on. *)
Definition hasattr___bytes__ (o : pyobj) : bool :=
  match o with
  | PyVal (VBytes _) => bytes_has_dunder
  | PyVal (VPath _) => true
  | PyVal _ => false
  | PyType c | PyInstance c _ =>
      match __bytes__ c with Some _ => true | None => false end
  | PyStream _ => false
  end.

(** [bytes(o)], as [write] calls it on an object that has [__bytes__]: the
    method is looked up on the type of [o] and must return a [bytes]
    object.  The bytes of a path are those of its string form.  An ordinary
    class has the attribute without its own type, [type], having the
    method, and is refused.
    The other cases are not reached by [write]: without the method an
    integer that fits into an index gives that many zero bytes, and a
    string or [None] is refused; the stream objects are taken to be refused
    as well, where [bytes] would iterate over them. *)
Definition py_bytes (o : pyobj) : result value :=
  match o with
  | PyVal (VBytes bs) => Returns (VBytes bs)
  | PyVal (VPath p) => Returns (VBytes (b p))
  | PyInstance c state =>
      match __bytes__ c with
      | Some render =>
          match render state with
          | Returns (VBytes bs) => Returns (VBytes bs)
          | Returns v =>
              Raises (TypeError
                        (String.append "__bytes__ returned non-bytes (type "
                           (String.append (type_name (PyVal v)) ")")))
          | Raises e => Raises e
          end
      | None => Raises (cannot_convert o)
      end
  | PyVal (VStr _) => Raises (TypeError "string argument without an encoding")
  | PyVal (VInt n) =>
      if negb (fits_ssize_t n) then Raises index_error
      else if n <? 0 then Raises (ValueError "negative count")
      else Returns (VBytes (repeat x00 (Z.to_nat n)))
  | PyVal (VBool v) => Returns (VBytes (if v then [x00] else []))
  | PyVal VNone | PyType _ | PyStream _ => Raises (cannot_convert o)
  end.

(** ** The class [SeaStream] *)

(** An instance: its two attributes. *)
Record SeaStream : Type := {
  _opened_stream : bool;
  wrapped_stream : pyobj
}.

(** The double quote of the message of [__init__]. *)
Definition dquote : string := String "034"%char EmptyString.

(** The exceptions the class raises itself. *)
Definition mode_type_error : exn :=
  TypeError "mode must be a string specifying a binary file open mode".

Definition binary_mode_error (mode : string) : exn :=
  ValueError
    (String.append dquote
       (String.append mode
          (String.append dquote
             " doesn't describe a binary file open mode"))).

Definition read_arg_error : exn :=
  TypeError "Argument to read must be a type or an integer".

(** [SeaStream(base, mode)]; [mode] is [None] when the caller leaves it
    out, and then is ["rb"]. *)
Definition __init__ (base : pyobj) (mode : option pyobj) : M H SeaStream :=
  let mode := default (PyVal (VStr "rb")) mode in
  if isinstance_VALID_PATH_TYPES base then
    match isinstance_str mode with
    | None => raise mode_type_error
    | Some m =>
        if negb (str_in "b" m) then raise (binary_mode_error m)
        else
          base <- py_open base mode ;;
          ret {| _opened_stream := true; wrapped_stream := base |}
    end
  else
    ret {| _opened_stream := false; wrapped_stream := base |}.

(** [self.write(obj)].  In [self.wrapped_stream.write(bytes(obj))] the
    bound method is looked up before its argument is evaluated. *)
Definition write (self : SeaStream) (obj : pyobj) : M H value :=
  if hasattr___bytes__ obj then
    wr <- getattr_method (wrapped_stream self) "write" ;;
    data <- lift (py_bytes obj) ;;
    invoke wr (MWrite (PyVal data))
  else
    wr <- getattr_method (wrapped_stream self) "write" ;;
    invoke wr (MWrite obj).

(** The attribute lookups of [read].  A class attribute is found on the
    class object and on its instances; plain data and stream objects have
    none of the three. *)
Definition getattr_from_bytes (o : pyobj) : M H (value -> result pyobj) :=
  match o with
  | PyType c | PyInstance c _ =>
      match from_bytes c with
      | Some f => ret f
      | None => raise (AttributeError "from_bytes")
      end
  | _ => raise (AttributeError "from_bytes")
  end.

Definition getattr__struct (o : pyobj) : M H Struct :=
  match o with
  | PyType c | PyInstance c _ =>
      match _struct c with
      | Some s => ret s
      | None => raise (AttributeError "_struct")
      end
  | _ => raise (AttributeError "_struct")
  end.

Definition getattr_size (s : Struct) : M H value :=
  match size s with
  | Some n => ret n
  | None => raise (AttributeError "size")
  end.

(** [self.read(arg)]; [arg] is [None] when the caller leaves it out, and
    then is [-1].  In
    [arg.from_bytes(self.wrapped_stream.read(arg._struct.size))] the order
    of evaluation is: [arg.from_bytes], [self.wrapped_stream.read],
    [arg._struct.size], the call of [read], the call of [from_bytes]. *)
Definition read (self : SeaStream) (arg : option pyobj) : M H pyobj :=
  let arg := default (PyVal (VInt (-1))) arg in
  if isinstance_int arg then
    rd <- getattr_method (wrapped_stream self) "read" ;;
    raw <- invoke rd (MRead arg) ;;
    ret (PyVal raw)
  else if isinstance_type arg then
    decode <- getattr_from_bytes arg ;;
    rd <- getattr_method (wrapped_stream self) "read" ;;
    s <- getattr__struct arg ;;
    n <- getattr_size s ;;
    raw <- invoke rd (MRead (PyVal n)) ;;
    lift (decode raw)
  else
    raise read_arg_error.

(** [self.__enter__()]: the body is [pass]. *)
Definition __enter__ (self : SeaStream) : M H value := ret VNone.

(** [self.__exit__(exc_type, exc_val, exc_tb)]; the three arguments
    describe the exception that left the block, or are all [None]. *)
Definition __exit__ (self : SeaStream) (exc : option exn) : M H value :=
  cl <- getattr_method (wrapped_stream self) "close" ;;
  _ <- invoke cl MClose ;;
  ret VNone.

(** The statement [with mgr as target: body]: [__exit__] is called when
    the block is left, with the exception when one left it; that exception
    is raised again unless [__exit__] returned a true value. *)
Definition with_ (mgr : SeaStream) (body : value -> M H unit) : M H unit :=
  fun w =>
    match __enter__ mgr w with
    | (Raises e, w0) => (Raises e, w0)
    | (Returns target, w0) =>
        match body target w0 with
        | (Returns tt, w1) =>
            match __exit__ mgr None w1 with
            | (Returns _, w2) => (Returns tt, w2)
            | (Raises e', w2) => (Raises e', w2)
            end
        | (Raises e, w1) =>
            match __exit__ mgr (Some e) w1 with
            | (Returns r, w2) =>
                if truthy r then (Returns tt, w2) else (Raises e, w2)
            | (Raises e', w2) => (Raises e', w2)
            end
        end
    end.

End Runtime.

Arguments SeaStream : clear implicits.

(** ** An in-memory stream: [io.BytesIO]

    The stream object the claims about positions and short reads are tried
    on.  It follows CPython's [Modules/_io/bytesio.c]: a buffer, a position
    in it, whether the object was closed, and the number of buffer views
    ([getbuffer()]) that are alive, which forbid resizing and closing. *)
Module BytesIO.

Record t : Type := {
  buf : bytes;
  pos : nat;
  closed : bool;
  exports : nat
}.

(** [BytesIO(initial)]. *)
Definition make (initial : bytes) : t :=
  {| buf := initial; pos := 0; closed := false; exports := 0 |}.

Definition closed_error : exn := ValueError "I/O operation on closed file.".

Definition exports_error : exn :=
  BufferError "Existing exports of data: object cannot be re-sized".

(** The largest index there is for the stream [s].  It is that of the
    platform, [PY_SSIZE_T_MAX], for every buffer that can exist, since the
    length of a buffer fits into an index; the maximum keeps this true of
    the buffers here, which are lists of any length. *)
Definition index_limit (s : t) : Z :=
  Z.max PY_SSIZE_T_MAX (Z.of_nat (length (buf s))).

(** The [size] argument of [read]: [None], or an integer that fits into an
    index. *)
Definition as_size (limit : Z) (o : pyobj) : result Z :=
  match o with
  | PyVal VNone => Returns (-1)
  | PyVal (VInt n) =>
      if fits_index limit n then Returns n else Raises index_error
  | PyVal (VBool v) => Returns (if v then 1 else 0)
  | _ =>
      Raises (TypeError
                (String.append "argument should be integer or None, not '"
                   (String.append (type_name o) "'")))
  end.

(** How many bytes [read(size)] takes when [n] are left: a negative or
    too large [size] means all of them. *)
Definition clamp (size n : Z) : nat :=
  if (size <? 0) || (n <? size) then Z.to_nat (Z.max n 0) else Z.to_nat size.

Definition read (arg : pyobj) (s : t) : result value * t :=
  match as_size (index_limit s) arg with
  | Raises e => (Raises e, s)
  | Returns size =>
      if closed s then (Raises closed_error, s)
      else
        let n := Z.of_nat (length (buf s)) - Z.of_nat (pos s) in
        let k := clamp size n in
        (Returns (VBytes (take k (drop (pos s) (buf s)))),
         {| buf := buf s; pos := (pos s + k)%nat;
            closed := closed s; exports := exports s |})
  end.

(** The buffer after [data] is written at [p]: a gap between the end of
    the buffer and [p] is filled with zero bytes. *)
Definition write_at (p : nat) (data : bytes) (old : bytes) : bytes :=
  (take p old ++ repeat x00 (p - length old) ++ data
     ++ drop (p + length data) old)%list.

Definition write (arg : pyobj) (s : t) : result value * t :=
  if closed s then (Raises closed_error, s)
  else if (0 <? exports s)%nat then (Raises exports_error, s)
  else
    match arg with
    | PyVal (VBytes data) =>
        match data with
        | [] => (Returns (VInt 0), s)
        | _ =>
            (Returns (VInt (Z.of_nat (length data))),
             {| buf := write_at (pos s) data (buf s);
                pos := (pos s + length data)%nat;
                closed := closed s; exports := exports s |})
        end
    | _ => (Raises (TypeError "a bytes-like object is required"), s)
    end.

Definition close (s : t) : result value * t :=
  if (0 <? exports s)%nat then (Raises exports_error, s)
  else
    (Returns VNone,
     {| buf := []; pos := pos s; closed := true; exports := exports s |}).

(** [tell()] of an open stream. *)
Definition tell (s : t) : nat := pos s.


End BytesIO.

#[export] Instance BytesIO_BinaryIO : BinaryIO BytesIO.t := {
  io_read := BytesIO.read;
  io_write := BytesIO.write;
  io_close := BytesIO.close
}.

(** ** What callers do around a stream *)

(** [target.write(obj)] on the target of a [with] statement, which is what
    [__enter__] returned: plain data has no [write] method. *)
Definition target_write {H : Type} (target : value) (obj : pyobj)
  : M H value :=
  match target with
  | VNone | VBool _ | VInt _ | VStr _ | VBytes _ | VPath _ =>
      raise (AttributeError "write")
  end.


(** ** Vocabulary of the specification *)

(** A capable type descriptor: a class object that has [from_bytes] and a
    [_struct] with a [size]. *)
Definition capable (o : pyobj) : bool :=
  match o with
  | PyType c =>
      match from_bytes c, _struct c with
      | Some _, Some s =>
          match size s with Some _ => true | None => false end
      | _, _ => false
      end
  | _ => false
  end.

(** The outcome [out] is what decoding exactly [N] bytes with the
    [from_bytes] of the class [c] gives. *)
Definition decodes_exactly (c : pyclass) (N : nat) (out : result pyobj)
  : Prop :=
  exists (decode : value -> result pyobj) (raw : bytes),
    from_bytes c = Some decode /\ length raw = N /\ out = decode (VBytes raw).

(** The outcome [out] is a [TypeError]. *)
Definition is_TypeError {A : Type} (out : result A) : Prop :=
  exists msg : string, out = Raises (TypeError msg).


Definition write_moves_position {H : Type} `{BinaryIO H} (tell : H -> nat)
  : Prop :=
  forall (arg : pyobj) (st st' : H) (r : value),
    io_write arg st = (Returns r, st') ->
    exists bs : bytes,
      arg = PyVal (VBytes bs) /\ tell st' = (tell st + length bs)%nat.

(** The binary modes the specification lists. *)
Definition binary_modes : list string :=
  ["rb"; "wb"; "ab"; "rb+"; "wb+"; "ab+"].

(** ** Objects of the test suite *)
Module Examples.

(** The class [DummySerializable] of the tests: [_struct] has [size] 3,
    [from_bytes] returns ["foo"] and [__bytes__] returns [b"foo"]. *)
Definition DummySerializable : pyclass :=
  {| cls_name := "DummySerializable";
     _struct := Some {| size := Some (VInt 3) |};
     from_bytes := Some (fun _ => Returns (PyVal (VStr "foo")));
     __bytes__ := Some (fun _ => Returns (VBytes (b "foo"))) |}.

(** A class of three-byte records whose instances keep the bytes they
    were decoded from. *)
Definition Triple : pyclass :=
  {| cls_name := "Triple";
     _struct := Some {| size := Some (VInt 3) |};
     from_bytes := Some (fun raw => Returns (PyVal raw));
     __bytes__ := Some (fun state => Returns state) |}.

(** A class with none of the attributes, [class Plain: pass]. *)
Definition Plain : pyclass :=
  {| cls_name := "Plain";
     _struct := None; from_bytes := None; __bytes__ := None |}.

(** A class whose [__bytes__] returns a string. *)
Definition Broken : pyclass :=
  {| cls_name := "Broken";
     _struct := None; from_bytes := None;
     __bytes__ := Some (fun _ => Returns (VStr "foo")) |}.

(** A class of three-byte records whose [from_bytes] refuses its input. *)
Definition Strict : pyclass :=
  {| cls_name := "Strict";
     _struct := Some {| size := Some (VInt 3) |};
     from_bytes := Some (fun _ => Raises (ValueError "bad record"));
     __bytes__ := None |}.

(** A world with one stream object, [BytesIO(initial)]. *)
Definition world_of (initial : bytes) : World BytesIO.t :=
  {| store := [BytesIO.make initial]; trace := [] |}.

(** [SeaStream(raw)] for that stream object. *)
Definition stream : SeaStream :=
  {| _opened_stream := false; wrapped_stream := PyStream 0 |}.

(** An [open] that finds every file empty. *)
Definition open_empty (file mode : pyobj) : result BytesIO.t :=
  Returns (BytesIO.make []).

(** A world with one stream object, [raw = BytesIO(initial)], of which a
    buffer view is alive, [view = raw.getbuffer()]. *)
Definition world_exported (initial : bytes) : World BytesIO.t :=
  {| store := [{| BytesIO.buf := initial; BytesIO.pos := 0;
                  BytesIO.closed := false; BytesIO.exports := 1 |}];
     trace := [] |}.

End Examples.

(** * Properties *)

Section Properties.

Context {H : Type} `{BinaryIO H}.
Variable os_open : pyobj -> pyobj -> result H.
Variable bytes_has_dunder : bool.

(** A call on a stream object of the store: its outcome is the method's,
    and the world is the one after exactly that call. *)
Lemma invoke_called (h : nat) (c : method_call) (st : H) (w : World H) :
  store w !! h = Some st ->
  invoke h c w = ((dispatch c st).1, called h c (dispatch c st).2 w).
Proof.
  intros Hst. unfold invoke. rewrite Hst.
  destruct (dispatch c st) as [r st']. reflexivity.
Qed.

(** A call adds exactly one entry to the trace. *)
Lemma trace_called (h : nat) (c : method_call) (st' : H) (w : World H) :
  trace (called h c st' w) = (trace w ++ [EvCall h c])%list.
Proof. reflexivity. Qed.

(** A world with a longer trace is another world. *)
Lemma opened_neq (file mode : pyobj) (new : list H) (w : World H) :
  opened file mode new w <> w.
Proof.
  intros Heq. apply (f_equal (fun x => length (trace x))) in Heq.
  simpl in Heq. rewrite length_app in Heq. simpl in Heq. lia.
Qed.

(** C3: for every integer [n], [read(n)] on a stream that wraps the
    stream object [h] makes exactly one call on [h], the raw [read] with
    the argument [n] itself, and returns what that call returned,
    unchanged (raises what it raised); [n = -1] is passed on like any
    other integer. *)
Theorem read_int_forwards (self : SeaStream) (h : nat) (st : H)
    (n : pyobj) (w : World H) :
  isinstance_int n = true ->
  wrapped_stream self = PyStream h ->
  store w !! h = Some st ->
  read self (Some n) w =
    (result_bind (io_read n st).1 (fun raw => Returns (PyVal raw)),
     called h (MRead n) (io_read n st).2 w).
Proof.
  intros Hint Hws Hst. unfold read. simpl. rewrite Hint, Hws.
  unfold bind. simpl. rewrite (invoke_called _ _ st) by assumption.
  simpl. destruct (io_read n st) as [[raw|e] st']; reflexivity.
Qed.

(** C1, as amended: for a class [c] with a [from_bytes] and a [_struct]
    whose [size] is [n], [read(c)] makes exactly one call on the wrapped
    stream object, the raw [read] with the argument [n], and returns
    [from_bytes] of exactly what that call returned, be it [n] bytes or
    fewer. *)
Theorem read_type_decodes (self : SeaStream) (h : nat) (st : H)
    (c : pyclass) (decode : value -> result pyobj) (s : Struct) (n : value)
    (w : World H) :
  from_bytes c = Some decode ->
  _struct c = Some s ->
  size s = Some n ->
  wrapped_stream self = PyStream h ->
  store w !! h = Some st ->
  read self (Some (PyType c)) w =
    (result_bind (io_read (PyVal n) st).1 decode,
     called h (MRead (PyVal n)) (io_read (PyVal n) st).2 w).
Proof.
  intros Hfb Hstruct Hsize Hws Hst. unfold read. simpl.
  rewrite Hfb, Hws, Hstruct. unfold bind, getattr_size. simpl.
  rewrite Hsize. simpl. rewrite (invoke_called _ _ st) by assumption.
  simpl. destruct (io_read (PyVal n) st) as [[raw|e] st']; reflexivity.
Qed.

(** C2, as amended: a selector that is neither an integer nor a class
    object makes [read] raise its [TypeError], and a class object that is
    not capable makes it raise an [AttributeError]; in both cases the world
    is the one before the call: the stream object was not called. *)
Theorem read_rejects_selector (self : SeaStream) (arg : pyobj)
    (w : World H) :
  isinstance_int arg = false ->
  capable arg = false ->
  (isinstance_type arg = false ->
   read self (Some arg) w = (Raises read_arg_error, w)) /\
  (isinstance_type arg = true ->
   exists attr : string,
     read self (Some arg) w = (Raises (AttributeError attr), w)).
Proof.
  intros Hint Hcap. unfold read. simpl. rewrite Hint. split; intros Hty.
  - rewrite Hty. reflexivity.
  - rewrite Hty. destruct arg as [v|c|c state|h0]; try discriminate Hty.
    simpl in Hcap. unfold bind. simpl.
    destruct (from_bytes c) as [decode|]; [|by eexists].
    simpl.
    destruct (wrapped_stream self) as [v|c'|c' state|h0]; try by eexists.
    simpl.
    destruct (_struct c) as [s|]; [|by eexists].
    simpl. unfold getattr_size.
    destruct (size s) as [n|]; [discriminate Hcap|by eexists].
Qed.

(** [bytes(o)] returns a [bytes] object when it returns. *)
Lemma py_bytes_returns_bytes (obj : pyobj) (data : value) :
  py_bytes obj = Returns data -> exists bs : bytes, data = VBytes bs.
Proof.
  unfold py_bytes.
  destruct obj as [[| v | n | s | bs | p] | c | c state | h0];
    try discriminate; try (intros [= <-]; by eexists).
  - destruct (negb (fits_ssize_t n)); [discriminate|].
    destruct (n <? 0); [discriminate|]. intros [= <-]. by eexists.
  - destruct (__bytes__ c) as [render|]; [|discriminate].
    destruct (render state) as [[| v | n | s | bs | p] | e];
      try discriminate.
    intros [= <-]. by eexists.
Qed.

(** C4: for every object that has [__bytes__] and that [bytes] renders to
    [data], [write(obj)] makes exactly one call on the wrapped stream
    object, the raw [write] with the bytes object [data], and returns what
    that call returned, unchanged (raises what it raised). *)
Theorem write_renders (self : SeaStream) (h : nat) (st : H) (obj : pyobj)
    (data : value) (w : World H) :
  hasattr___bytes__ bytes_has_dunder obj = true ->
  py_bytes obj = Returns data ->
  wrapped_stream self = PyStream h ->
  store w !! h = Some st ->
  (exists bs : bytes, data = VBytes bs) /\
  write bytes_has_dunder self obj w =
    ((io_write (PyVal data) st).1,
     called h (MWrite (PyVal data)) (io_write (PyVal data) st).2 w).
Proof.
  intros Hhas Hbytes Hws Hst. split.
  - by apply (py_bytes_returns_bytes obj).
  - unfold write. rewrite Hhas, Hws. unfold bind, lift. simpl.
    rewrite Hbytes. exact (invoke_called h (MWrite (PyVal data)) st w Hst).
Qed.

(** C5: for every object without [__bytes__], a plain bytes object among
    them, [write(obj)] makes exactly one call on the wrapped stream object,
    the raw [write] with [obj] itself, and returns what that call
    returned. *)
Theorem write_passes_through (self : SeaStream) (h : nat) (st : H)
    (obj : pyobj) (w : World H) :
  hasattr___bytes__ bytes_has_dunder obj = false ->
  wrapped_stream self = PyStream h ->
  store w !! h = Some st ->
  write bytes_has_dunder self obj w =
    ((io_write obj st).1, called h (MWrite obj) (io_write obj st).2 w).
Proof.
  intros Hhas Hws Hst. unfold write. rewrite Hhas, Hws. unfold bind. simpl.
  exact (invoke_called h (MWrite obj) st w Hst).
Qed.

(** A bytes object reaches the raw [write] as it is in every version of
    the interpreter: where [bytes] has [__bytes__], [bytes(obj)] is [obj]. *)
Lemma write_bytes_any_version (self : SeaStream) (h : nat) (st : H)
    (bs : bytes) (w : World H) :
  wrapped_stream self = PyStream h ->
  store w !! h = Some st ->
  write bytes_has_dunder self (PyVal (VBytes bs)) w =
    ((io_write (PyVal (VBytes bs)) st).1,
     called h (MWrite (PyVal (VBytes bs)))
       (io_write (PyVal (VBytes bs)) st).2 w).
Proof.
  intros Hws Hst. unfold write.
  destruct (hasattr___bytes__ bytes_has_dunder (PyVal (VBytes bs)));
    rewrite Hws; unfold bind, lift; simpl;
    exact (invoke_called h (MWrite (PyVal (VBytes bs))) st w Hst).
Qed.

(** Proof steps of the statements about the constructor: open up the
    hypotheses, and refute an equation between a world and the same world
    after a call of [open]. *)
Ltac destruct_hyps :=
  repeat match goal with
         | Hex : exists _, _ |- _ => destruct Hex
         | Hand : _ /\ _ |- _ => destruct Hand
         end.

Ltac world_absurd :=
  match goal with
  | Hw : (_, opened ?f ?m ?new ?w) = (_, ?w) |- _ =>
      apply (f_equal snd) in Hw; destruct (opened_neq f m new w Hw)
  end.

(** C6: for a path-like [base], the constructor raises its [TypeError],
    with [open] not called, exactly when [mode] is not a string; it raises
    its [ValueError] about binary modes, with [open] not called, exactly
    when [mode] is a string without ["b"] in it; and in the case that is
    left it raises nothing of its own: it calls [open], and its outcome is
    that of [open]. *)
Theorem init_validation (base : pyobj) (mode : option pyobj) (w : World H) :
  isinstance_VALID_PATH_TYPES base = true ->
  let mode' := default (PyVal (VStr "rb")) mode in
  let out := __init__ os_open base mode w in
  (out = (Raises mode_type_error, w) <-> isinstance_str mode' = None) /\
  ((exists m : string, out = (Raises (binary_mode_error m), w)) <->
   (exists m : string,
      isinstance_str mode' = Some m /\ str_in "b" m = false)) /\
  (forall m : string,
     isinstance_str mode' = Some m -> str_in "b" m = false ->
     out = (Raises (binary_mode_error m), w)) /\
  (forall m : string,
     isinstance_str mode' = Some m -> str_in "b" m = true ->
     out =
       match os_open base mode' with
       | Returns st =>
           (Returns {| _opened_stream := true;
                       wrapped_stream := PyStream (length (store w)) |},
            opened base mode' [st] w)
       | Raises e => (Raises e, opened base mode' [] w)
       end).
Proof.
  intros Hpath mode' out. subst out. unfold __init__. fold mode'.
  rewrite Hpath.
  destruct (isinstance_str mode') as [m|] eqn:Hstr.
  - destruct (str_in "b" m) eqn:Hb; simpl.
    + unfold bind, py_open.
      destruct (os_open base mode') as [st|e] eqn:Hopen; simpl;
        repeat split; intros; destruct_hyps; try world_absurd;
        try discriminate; try congruence.
    + unfold raise.
      repeat split; intros; destruct_hyps; try discriminate;
        try congruence; by exists m.
  - unfold raise. repeat split; intros; destruct_hyps; try discriminate.
Qed.

(** Each of the listed binary modes has the marker. *)
Lemma binary_modes_marked (m : string) :
  In m binary_modes -> str_in "b" m = true.
Proof.
  unfold binary_modes. simpl.
  intros [<-|[<-|[<-|[<-|[<-|[<-|[]]]]]]]; reflexivity.
Qed.

(** C7: the flag of a constructed stream is set exactly when [base] was
    path-like; and for a path-like [base] and a listed binary mode [m] the
    constructor makes exactly one call of [open], with [base] and the mode
    [m], and when [open] returns a stream object the new stream has the
    flag set and wraps that object. *)
Theorem init_opens_with_mode (base : pyobj) (mode : option pyobj)
    (w : World H) :
  let out := __init__ os_open base mode w in
  (forall (s : SeaStream) (w' : World H),
     out = (Returns s, w') ->
     (_opened_stream s = true <-> isinstance_VALID_PATH_TYPES base = true)) /\
  (forall m : string,
     isinstance_VALID_PATH_TYPES base = true ->
     In m binary_modes ->
     mode = Some (PyVal (VStr m)) ->
     trace out.2 = (trace w ++ [EvOpen base (PyVal (VStr m))])%list /\
     match os_open base (PyVal (VStr m)) with
     | Returns st =>
         out.1 = Returns {| _opened_stream := true;
                            wrapped_stream := PyStream (length (store w)) |} /\
         store out.2 = (store w ++ [st])%list /\
         store out.2 !! length (store w) = Some st
     | Raises e => out.1 = Raises e /\ store out.2 = store w
     end).
Proof.
  intros out. subst out. split.
  - intros s w'. unfold __init__.
    destruct (isinstance_VALID_PATH_TYPES base) eqn:Hpath.
    + destruct (isinstance_str _) as [m|]; [|discriminate].
      destruct (str_in "b" m); simpl; [|discriminate].
      unfold bind, py_open. destruct (os_open _ _) as [st|e]; simpl.
      * intros [= <- _]. simpl. tauto.
      * discriminate.
    + intros [= <- _]. simpl. split; intros; discriminate.
  - intros m Hpath Hm ->. unfold __init__. simpl. rewrite Hpath.
    rewrite (binary_modes_marked m Hm). simpl. unfold bind, py_open.
    destruct (os_open base (PyVal (VStr m))) as [st|e]; simpl.
    + repeat split.
      rewrite lookup_app_r by lia. by rewrite Nat.sub_diag.
    + repeat split. apply app_nil_r.
Qed.

(** The constructor leaves a stream object that is passed in alone: it is
    wrapped as it is, and nothing is called. *)
Lemma init_wraps_stream (h : nat) (mode : option pyobj) (w : World H) :
  __init__ os_open (PyStream h) mode w =
    (Returns {| _opened_stream := false; wrapped_stream := PyStream h |}, w).
Proof. reflexivity. Qed.

(** C8, as amended: when the scope of a stream that wraps the stream
    object [h] is left, whatever the flag of the stream and whether or not
    an exception is active, exactly one call is made on [h], [close];
    [__exit__] returns [None] when [close] returns, so that a block that
    ended normally ends the statement normally and an exception that left
    the block is raised again as it is; what [close] raises is raised by
    the statement. *)
Theorem exit_closes_once (self : SeaStream) (h : nat) (st : H)
    (w : World H) :
  wrapped_stream self = PyStream h ->
  store w !! h = Some st ->
  (forall exc : option exn,
     __exit__ self exc w =
       (result_bind (io_close st).1 (fun _ => Returns VNone),
        called h MClose (io_close st).2 w)) /\
  (forall (body : value -> M H unit) (w0 : World H),
     body VNone w0 = (Returns tt, w) ->
     with_ self body w0 =
       (result_bind (io_close st).1 (fun _ => Returns tt),
        called h MClose (io_close st).2 w)) /\
  (forall (body : value -> M H unit) (w0 : World H) (e : exn),
     body VNone w0 = (Raises e, w) ->
     with_ self body w0 =
       (result_bind (io_close st).1 (fun _ => Raises e),
        called h MClose (io_close st).2 w)).
Proof.
  intros Hws Hst.
  assert (Hexit : forall exc : option exn,
             __exit__ self exc w =
               (result_bind (io_close st).1 (fun _ => Returns VNone),
                called h MClose (io_close st).2 w)).
  { intros exc. unfold __exit__. rewrite Hws. unfold bind. simpl.
    rewrite (invoke_called _ _ st) by assumption. simpl.
    destruct (io_close st) as [[r|e] st']; reflexivity. }
  split; [exact Hexit|]. split.
  - intros body w0 Hbody. unfold with_. simpl. rewrite Hbody, Hexit.
    destruct (io_close st) as [[r|e] st']; reflexivity.
  - intros body w0 e Hbody. unfold with_. simpl. rewrite Hbody, Hexit.
    destruct (io_close st) as [[r|e'] st']; reflexivity.
Qed.

End Properties.

(** C3 at [read(6)] on [BytesIO(b"abcdef")]. *)
Lemma read_int_forwards_witness :
  read Examples.stream (Some (PyVal (VInt 6))) (Examples.world_of (b "abcdef")) =
    (Returns (PyVal (VBytes (b "abcdef"))),
     {| store := [{| BytesIO.buf := b "abcdef"; BytesIO.pos := 6;
                     BytesIO.closed := false; BytesIO.exports := 0 |}];
        trace := [EvCall 0 (MRead (PyVal (VInt 6)))] |}).
Proof.
  exact (read_int_forwards Examples.stream 0 (BytesIO.make (b "abcdef"))
           (PyVal (VInt 6)) (Examples.world_of (b "abcdef"))
           eq_refl eq_refl eq_refl).
Defined.


(** C1, as amended, at [read(DummySerializable)] on [BytesIO(b"abcdef")]. *)
Lemma read_type_decodes_witness :
  read Examples.stream (Some (PyType Examples.DummySerializable))
    (Examples.world_of (b "abcdef")) =
    (Returns (PyVal (VStr "foo")),
     {| store := [{| BytesIO.buf := b "abcdef"; BytesIO.pos := 3;
                     BytesIO.closed := false; BytesIO.exports := 0 |}];
        trace := [EvCall 0 (MRead (PyVal (VInt 3)))] |}).
Proof.
  exact (read_type_decodes Examples.stream 0 (BytesIO.make (b "abcdef"))
           Examples.DummySerializable _ _ _ (Examples.world_of (b "abcdef"))
           eq_refl eq_refl eq_refl eq_refl eq_refl).
Defined.

(** C1 as stated fails on a short stream: [read(Triple)], for a class of
    declared size 3, on [BytesIO(b"ab")] takes the two bytes that are left
    and decodes those; the outcome is not that of decoding three bytes. *)
Lemma read_type_short_stream :
  let out :=
    read Examples.stream (Some (PyType Examples.Triple))
      (Examples.world_of (b "ab")) in
  out.1 = Returns (PyVal (VBytes (b "ab"))) /\
  BytesIO.pos <$> store out.2 = [2%nat] /\
  ~ decodes_exactly Examples.Triple 3 out.1.
Proof.
  split; [reflexivity|]. split; [reflexivity|].
  intros (decode & raw & Hdec & Hlen & Hout).
  injection Hdec as <-. injection Hout as <-. discriminate Hlen.
Qed.

(** C2, as amended, at [read("x")] and at [read(Plain)]. *)
Lemma read_rejects_selector_witness :
  read Examples.stream (Some (PyVal (VStr "x"))) (Examples.world_of (b "ab")) =
    (Raises read_arg_error, Examples.world_of (b "ab")) /\
  exists attr : string,
    read Examples.stream (Some (PyType Examples.Plain))
      (Examples.world_of (b "ab")) =
      (Raises (AttributeError attr), Examples.world_of (b "ab")).
Proof.
  split.
  - exact (proj1 (read_rejects_selector Examples.stream (PyVal (VStr "x"))
                    (Examples.world_of (b "ab")) eq_refl eq_refl) eq_refl).
  - exact (proj2 (read_rejects_selector Examples.stream
                    (PyType Examples.Plain)
                    (Examples.world_of (b "ab")) eq_refl eq_refl) eq_refl).
Defined.

(** C2 as stated fails on a class object that is not capable:
    [read(Plain)] is neither an integer nor a capable type descriptor, and
    the exception is an [AttributeError], not a [TypeError]. *)
Lemma read_incapable_type_not_TypeError :
  isinstance_int (PyType Examples.Plain) = false /\
  capable (PyType Examples.Plain) = false /\
  (read Examples.stream (Some (PyType Examples.Plain))
     (Examples.world_of (b "ab"))).1 = Raises (AttributeError "from_bytes") /\
  ~ is_TypeError
      (read Examples.stream (Some (PyType Examples.Plain))
         (Examples.world_of (b "ab"))).1.
Proof.
  split; [reflexivity|]. split; [reflexivity|]. split; [reflexivity|].
  intros [msg Hmsg]. discriminate Hmsg.
Qed.

(** C4 at [write(DummySerializable())] on [BytesIO(b"abcdef")]. *)
Lemma write_renders_witness :
  (exists bs : bytes, VBytes (b "foo") = VBytes bs) /\
  write false Examples.stream (PyInstance Examples.DummySerializable VNone)
    (Examples.world_of (b "abcdef")) =
    (Returns (VInt 3),
     {| store := [{| BytesIO.buf := b "foodef"; BytesIO.pos := 3;
                     BytesIO.closed := false; BytesIO.exports := 0 |}];
        trace := [EvCall 0 (MWrite (PyVal (VBytes (b "foo"))))] |}).
Proof.
  exact (write_renders false Examples.stream 0 (BytesIO.make (b "abcdef"))
           (PyInstance Examples.DummySerializable VNone) (VBytes (b "foo"))
           (Examples.world_of (b "abcdef")) eq_refl eq_refl eq_refl eq_refl).
Defined.

(** C5 at [write(b"foo")] on [BytesIO(b"abcdef")]. *)
Lemma write_passes_through_witness :
  write false Examples.stream (PyVal (VBytes (b "foo")))
    (Examples.world_of (b "abcdef")) =
    (Returns (VInt 3),
     {| store := [{| BytesIO.buf := b "foodef"; BytesIO.pos := 3;
                     BytesIO.closed := false; BytesIO.exports := 0 |}];
        trace := [EvCall 0 (MWrite (PyVal (VBytes (b "foo"))))] |}).
Proof.
  exact (write_passes_through false Examples.stream 0
           (BytesIO.make (b "abcdef")) (PyVal (VBytes (b "foo")))
           (Examples.world_of (b "abcdef")) eq_refl eq_refl eq_refl).
Defined.

(** C6 at [SeaStream("/foo", mode=3)], [SeaStream("/foo", mode="rw")] and
    [SeaStream("/foo", mode="rb")]. *)
Lemma init_validation_witness :
  __init__ Examples.open_empty (PyVal (VStr "/foo")) (Some (PyVal (VInt 3)))
    (Examples.world_of []) =
    (Raises mode_type_error, Examples.world_of []) /\
  __init__ Examples.open_empty (PyVal (VStr "/foo"))
    (Some (PyVal (VStr "rw"))) (Examples.world_of []) =
    (Raises (binary_mode_error "rw"), Examples.world_of []) /\
  __init__ Examples.open_empty (PyVal (VStr "/foo"))
    (Some (PyVal (VStr "rb"))) (Examples.world_of []) =
    (Returns {| _opened_stream := true; wrapped_stream := PyStream 1 |},
     opened (PyVal (VStr "/foo")) (PyVal (VStr "rb")) [BytesIO.make []]
       (Examples.world_of [])).
Proof.
  split; [|split].
  - exact (proj2 (proj1 (init_validation Examples.open_empty
                           (PyVal (VStr "/foo")) (Some (PyVal (VInt 3)))
                           (Examples.world_of []) eq_refl)) eq_refl).
  - exact (proj1 (proj2 (proj2 (init_validation Examples.open_empty
                                  (PyVal (VStr "/foo"))
                                  (Some (PyVal (VStr "rw")))
                                  (Examples.world_of []) eq_refl)))
             "rw" eq_refl eq_refl).
  - exact (proj2 (proj2 (proj2 (init_validation Examples.open_empty
                                  (PyVal (VStr "/foo"))
                                  (Some (PyVal (VStr "rb")))
                                  (Examples.world_of []) eq_refl)))
             "rb" eq_refl eq_refl).
Defined.

(** C7 at [SeaStream("/foo", "wb")]. *)
Lemma init_opens_with_mode_witness :
  let out :=
    __init__ Examples.open_empty (PyVal (VStr "/foo"))
      (Some (PyVal (VStr "wb"))) (Examples.world_of []) in
  trace out.2 = [EvOpen (PyVal (VStr "/foo")) (PyVal (VStr "wb"))] /\
  out.1 = Returns {| _opened_stream := true; wrapped_stream := PyStream 1 |} /\
  store out.2 = [BytesIO.make []; BytesIO.make []] /\
  store out.2 !! 1%nat = Some (BytesIO.make []).
Proof.
  exact (proj2 (init_opens_with_mode Examples.open_empty
                  (PyVal (VStr "/foo")) (Some (PyVal (VStr "wb")))
                  (Examples.world_of []))
           "wb" eq_refl (or_intror (or_introl eq_refl)) eq_refl).
Defined.

(** C8, as amended, at a block that raises [OSError("boom")] in the scope
    of a stream over [BytesIO(b"abc")]. *)
Lemma exit_closes_once_witness :
  with_ Examples.stream (fun _ => raise (OSError "boom"))
    (Examples.world_of (b "abc")) =
    (Raises (OSError "boom"),
     {| store := [{| BytesIO.buf := []; BytesIO.pos := 0;
                     BytesIO.closed := true; BytesIO.exports := 0 |}];
        trace := [EvCall 0 MClose] |}).
Proof.
  exact (proj2 (proj2 (exit_closes_once Examples.stream 0
                         (BytesIO.make (b "abc"))
                         (Examples.world_of (b "abc")) eq_refl eq_refl))
           (fun _ => raise (OSError "boom")) (Examples.world_of (b "abc"))
           (OSError "boom") eq_refl).
Defined.

(** C8 as stated fails when [close] raises: in the scope of a stream over a
    [BytesIO] with a live buffer view, a block raises [OSError("boom")];
    [close] is called once and raises [BufferError], and that exception
    leaves the statement in the place of the one that was active. *)
Lemma exit_close_error_replaces :
  let out :=
    with_ Examples.stream (fun _ => raise (OSError "boom"))
      (Examples.world_exported (b "abc")) in
  trace out.2 = [EvCall 0 MClose] /\
  out.1 = Raises BytesIO.exports_error /\
  out.1 <> Raises (OSError "boom").
Proof.
  split; [reflexivity|]. split; [reflexivity|]. discriminate.
Qed.

(** ** The in-memory stream *)

(** The platform has indices. *)
Lemma PY_SSIZE_T_MAX_pos : 0 < PY_SSIZE_T_MAX.
Proof. reflexivity. Qed.

(** An integer between [-1] and the length of the buffer fits into an
    index, and so does one that fits into an index of the platform. *)
Lemma fits_index_buffer (st : BytesIO.t) (n : Z) :
  -1 <= n <= Z.of_nat (length (BytesIO.buf st)) ->
  fits_index (BytesIO.index_limit st) n = true.
Proof.
  intros Hn. unfold fits_index, BytesIO.index_limit.
  pose proof PY_SSIZE_T_MAX_pos.
  apply andb_true_intro. split; apply Z.leb_le; lia.
Qed.

Lemma fits_index_ssize_t (st : BytesIO.t) (n : Z) :
  fits_ssize_t n = true ->
  fits_index (BytesIO.index_limit st) n = true.
Proof.
  unfold fits_ssize_t, fits_index, BytesIO.index_limit.
  intros [Hlo Hhi]%andb_prop. apply Z.leb_le in Hlo, Hhi.
  apply andb_true_intro. split; apply Z.leb_le; lia.
Qed.

(** [read] never takes more bytes than are left. *)
Lemma clamp_le (size n : Z) : Z.of_nat (BytesIO.clamp size n) <= Z.max n 0.
Proof.
  unfold BytesIO.clamp.
  destruct (size <? 0) eqn:Hneg; simpl.
  - lia.
  - destruct (n <? size) eqn:Hbig; lia.
Qed.

(** [read] asks for what it is asked when that many bytes are left. *)
Lemma clamp_exact (size n : Z) :
  0 <= size <= n -> BytesIO.clamp size n = Z.to_nat size.
Proof.
  intros Hsize. unfold BytesIO.clamp.
  destruct (size <? 0) eqn:Hneg; [lia|].
  destruct (n <? size) eqn:Hbig; [lia|]. reflexivity.
Qed.

(** [read(-1)] asks for all that is left. *)
Lemma clamp_all (len p : nat) :
  BytesIO.clamp (-1) (Z.of_nat len - Z.of_nat p) = (len - p)%nat.
Proof. unfold BytesIO.clamp. simpl. lia. Qed.


(** A raw [write] that returns was given a bytes object, and the position
    moves by its length. *)
Lemma BytesIO_write_advances (arg : pyobj) (st st' : BytesIO.t) (r : value) :
  BytesIO.write arg st = (Returns r, st') ->
  exists bs : bytes,
    arg = PyVal (VBytes bs) /\
    BytesIO.tell st' = (BytesIO.tell st + length bs)%nat.
Proof.
  unfold BytesIO.write.
  destruct (BytesIO.closed st); [discriminate|].
  destruct (0 <? BytesIO.exports st)%nat; [discriminate|].
  destruct arg as [[| v | n | s | bs | p] | c | c state | h0];
    try discriminate.
  destruct bs as [|x bs]; intros [= <- <-]; eexists;
    (split; [reflexivity|]); unfold BytesIO.tell; simpl; lia.
Qed.

(** On an open stream with [N] bytes left, [read(N)] returns exactly [N]
    bytes. *)
Lemma BytesIO_read_exact (st : BytesIO.t) (N : Z) :
  BytesIO.closed st = false ->
  0 <= N ->
  Z.of_nat (BytesIO.pos st) + N <= Z.of_nat (length (BytesIO.buf st)) ->
  exists bs : bytes,
    (BytesIO.read (PyVal (VInt N)) st).1 = Returns (VBytes bs) /\
    length bs = Z.to_nat N.
Proof.
  intros Hopen HN Hleft. unfold BytesIO.read, BytesIO.as_size.
  rewrite fits_index_buffer by lia. rewrite Hopen. simpl.
  eexists. split; [reflexivity|].
  rewrite clamp_exact by lia. rewrite length_take, length_drop. lia.
Qed.

(** ** Positions *)


Lemma BytesIO_write_moves_position : write_moves_position BytesIO.tell.
Proof. intros arg st st' r. apply BytesIO_write_advances. Qed.

Section Positions.

Context {H : Type} `{BinaryIO H}.
Variable bytes_has_dunder : bool.


End Positions.


(** ** The default selector *)

(** C10: [read()] is [read(-1)], whatever the wrapped stream object; on a
    stream that wraps an open in-memory stream it makes the one raw call
    [read(-1)], returns all the bytes from the position on, and leaves the
    position behind them. *)
Theorem read_default_reads_all {H : Type} `{BinaryIO H} (self : SeaStream)
    (w : World H) :
  read self None w = read self (Some (PyVal (VInt (-1)))) w /\
  (forall (h : nat) (st : BytesIO.t) (wb : World BytesIO.t),
     wrapped_stream self = PyStream h ->
     store wb !! h = Some st ->
     BytesIO.closed st = false ->
     read self None wb =
       (Returns (PyVal (VBytes (drop (BytesIO.pos st) (BytesIO.buf st)))),
        called h (MRead (PyVal (VInt (-1))))
          {| BytesIO.buf := BytesIO.buf st;
             BytesIO.pos :=
               BytesIO.pos st + (length (BytesIO.buf st) - BytesIO.pos st);
             BytesIO.closed := false;
             BytesIO.exports := BytesIO.exports st |} wb)).
Proof.
  split; [reflexivity|]. intros h st wb Hws Hst Hopen.
  unfold read. simpl. rewrite Hws. unfold bind. simpl.
  rewrite (invoke_called _ _ st) by assumption. simpl.
  unfold BytesIO.read, BytesIO.as_size.
  rewrite fits_index_buffer by lia. rewrite Hopen. simpl.
  rewrite clamp_all. rewrite take_ge by (rewrite length_drop; lia).
  reflexivity.
Qed.

(** C10 at [read()] on [BytesIO(b"abcdef")]. *)
Lemma read_default_reads_all_witness :
  read Examples.stream None (Examples.world_of (b "abcdef")) =
    (Returns (PyVal (VBytes (b "abcdef"))),
     {| store := [{| BytesIO.buf := b "abcdef"; BytesIO.pos := 6;
                     BytesIO.closed := false; BytesIO.exports := 0 |}];
        trace := [EvCall 0 (MRead (PyVal (VInt (-1))))] |}).
Proof.
  exact (proj2 (read_default_reads_all Examples.stream
                  (Examples.world_of (b "abcdef")))
           0%nat (BytesIO.make (b "abcdef")) (Examples.world_of (b "abcdef"))
           eq_refl eq_refl eq_refl).
Defined.

(** * Further properties of the class *)

Section Further.

Context {H : Type} `{BinaryIO H}.
Variable os_open : pyobj -> pyobj -> result H.
Variable bytes_has_dunder : bool.

(** X1: a [base] that is not path-like is wrapped as it is, whatever it is
    and whatever [mode] is: the mode is not looked at, nothing is opened and
    nothing is called. *)
Theorem init_wraps_non_path (base : pyobj) (mode : option pyobj)
    (w : World H) :
  isinstance_VALID_PATH_TYPES base = false ->
  __init__ os_open base mode w =
    (Returns {| _opened_stream := false; wrapped_stream := base |}, w).
Proof. intros Hpath. unfold __init__. rewrite Hpath. reflexivity. Qed.

(** X2: for a path-like [base] and no [mode], the constructor raises
    neither of its own errors: it makes the one call [open(base, mode="rb")]
    and its outcome is that of [open], the new stream object wrapped with
    the flag set when [open] returned one. *)
Theorem init_default_mode (base : pyobj) (w : World H) :
  isinstance_VALID_PATH_TYPES base = true ->
  __init__ os_open base None w =
    match os_open base (PyVal (VStr "rb")) with
    | Returns st =>
        (Returns {| _opened_stream := true;
                    wrapped_stream := PyStream (length (store w)) |},
         opened base (PyVal (VStr "rb")) [st] w)
    | Raises e => (Raises e, opened base (PyVal (VStr "rb")) [] w)
    end.
Proof.
  intros Hpath. unfold __init__. simpl. rewrite Hpath. simpl.
  unfold bind, py_open.
  destruct (os_open base (PyVal (VStr "rb"))) as [st|e]; reflexivity.
Qed.

(** X3: whatever its arguments and whatever its outcome, the constructor
    calls no method of any stream object and leaves every stream object of
    the store as it is; the trace is as before, or has one call of [open]
    more. *)
Theorem init_calls_only_open (base : pyobj) (mode : option pyobj)
    (w : World H) :
  let mode' := default (PyVal (VStr "rb")) mode in
  let w' := (__init__ os_open base mode w).2 in
  (forall (h : nat) (st : H),
     store w !! h = Some st -> store w' !! h = Some st) /\
  (trace w' = trace w \/
   trace w' = (trace w ++ [EvOpen base mode'])%list).
Proof.
  intros mode' w'. subst w'. unfold __init__. fold mode'.
  destruct (isinstance_VALID_PATH_TYPES base); [|by split; [|left]].
  destruct (isinstance_str mode') as [m|]; [|by split; [|left]].
  destruct (str_in "b" m); simpl; [|by split; [|left]].
  unfold bind, py_open. destruct (os_open base mode') as [st|e]; simpl.
  - split; [|by right]. intros h st0 Hst. by apply lookup_app_l_Some.
  - split; [|by right]. intros h st0 Hst. by apply lookup_app_l_Some.
Qed.

(** X4: whatever its argument and whatever its outcome, [read] leaves the
    world as it is or makes exactly one call, a raw [read] on the stream
    object it wraps: it never writes, never closes, and never touches
    another stream object. *)
Theorem read_calls_at_most_one_read (self : SeaStream) (arg : option pyobj)
    (w : World H) :
  let w' := (read self arg w).2 in
  w' = w \/
  exists (h : nat) (a : pyobj) (st : H),
    wrapped_stream self = PyStream h /\
    store w !! h = Some st /\
    w' = called h (MRead a) (io_read a st).2 w.
Proof.
  intros w'. subst w'. unfold read.
  set (a := default (PyVal (VInt (-1))) arg).
  destruct (isinstance_int a).
  - destruct (wrapped_stream self) as [v|c|c state|h] eqn:Hws;
      try by left.
    unfold bind. simpl. unfold invoke.
    destruct (store w !! h) as [st|] eqn:Hst; [|by left].
    right. exists h, a, st. simpl.
    destruct (io_read a st) as [[raw|e] st']; by simpl.
  - destruct (isinstance_type a); [|by left].
    unfold bind.
    destruct a as [v|c|c state|h0]; simpl; try by left.
    + destruct (from_bytes c) as [decode|]; [|by left]. simpl.
      destruct (wrapped_stream self) as [v|c'|c' state|h] eqn:Hws;
        try by left.
      simpl. destruct (_struct c) as [s|]; [|by left]. simpl.
      unfold getattr_size. destruct (size s) as [n|]; [|by left]. simpl.
      unfold invoke. destruct (store w !! h) as [st|] eqn:Hst; [|by left].
      right. exists h, (PyVal n), st. simpl.
      destruct (io_read (PyVal n) st) as [[raw|e] st']; by simpl.
    + destruct (from_bytes c) as [decode|]; [|by left]. simpl.
      destruct (wrapped_stream self) as [v|c'|c' state'|h] eqn:Hws;
        try by left.
      simpl. destruct (_struct c) as [s|]; [|by left]. simpl.
      unfold getattr_size. destruct (size s) as [n|]; [|by left]. simpl.
      unfold invoke. destruct (store w !! h) as [st|] eqn:Hst; [|by left].
      right. exists h, (PyVal n), st. simpl.
      destruct (io_read (PyVal n) st) as [[raw|e] st']; by simpl.
Qed.

(** X5: whatever the object and whatever its outcome, [write] leaves the
    world as it is or makes exactly one call, a raw [write] on the stream
    object it wraps: it never reads, never closes, and never touches
    another stream object. *)
Theorem write_calls_at_most_one_write (self : SeaStream) (obj : pyobj)
    (w : World H) :
  let w' := (write bytes_has_dunder self obj w).2 in
  w' = w \/
  exists (h : nat) (a : pyobj) (st : H),
    wrapped_stream self = PyStream h /\
    store w !! h = Some st /\
    w' = called h (MWrite a) (io_write a st).2 w.
Proof.
  intros w'. subst w'. unfold write.
  destruct (hasattr___bytes__ bytes_has_dunder obj);
    (destruct (wrapped_stream self) as [v|c|c state|h] eqn:Hws;
     try by left); unfold bind, lift; simpl.
  - destruct (py_bytes obj) as [data|e]; [|by left].
    unfold invoke. destruct (store w !! h) as [st|] eqn:Hst; [|by left].
    right. exists h, (PyVal data), st. simpl.
    destruct (io_write (PyVal data) st) as [[r|e] st']; by simpl.
  - unfold invoke. destruct (store w !! h) as [st|] eqn:Hst; [|by left].
    right. exists h, obj, st. simpl.
    destruct (io_write obj st) as [[r|e] st']; by simpl.
Qed.

(** X6: when the object has [__bytes__] but [bytes(obj)] raises, [write]
    raises that exception and the stream object is not called: nothing is
    written. *)
Theorem write_render_failure (self : SeaStream) (h : nat) (obj : pyobj)
    (e : exn) (w : World H) :
  hasattr___bytes__ bytes_has_dunder obj = true ->
  py_bytes obj = Raises e ->
  wrapped_stream self = PyStream h ->
  write bytes_has_dunder self obj w = (Raises e, w).
Proof.
  intros Hhas Hbytes Hws. unfold write. rewrite Hhas, Hws.
  unfold bind, lift. simpl. rewrite Hbytes. reflexivity.
Qed.

(** X8: the flag [_opened_stream] is never consulted: two streams that wrap
    the same object and differ in the flag read, write and leave their scope
    in the same way, so a stream object that was passed in is closed like
    one that was opened from a path. *)
Theorem flag_never_consulted (flag flag' : bool) (ws : pyobj)
    (w : World H) :
  let s := {| _opened_stream := flag; wrapped_stream := ws |} in
  let s' := {| _opened_stream := flag'; wrapped_stream := ws |} in
  (forall arg : option pyobj, read s arg w = read s' arg w) /\
  (forall obj : pyobj,
     write bytes_has_dunder s obj w = write bytes_has_dunder s' obj w) /\
  (forall exc : option exn, __exit__ s exc w = __exit__ s' exc w) /\
  (forall body : value -> M H unit, with_ s body w = with_ s' body w).
Proof. repeat split. Qed.

(** X9: the target of [with mgr as target] is [None], not the stream:
    [__enter__] returns nothing.  A block that calls [target.write(obj)]
    raises [AttributeError]; nothing is written, the one call made is the
    [close] of the wrapped stream object, and the [AttributeError] leaves
    the statement when [close] returns. *)
Theorem with_target_is_None (mgr : SeaStream) (h : nat) (st : H)
    (obj : pyobj) (w : World H) :
  wrapped_stream mgr = PyStream h ->
  store w !! h = Some st ->
  with_ mgr (fun target => _ <- target_write target obj ;; ret tt) w =
    (result_bind (io_close st).1
       (fun _ => Raises (AttributeError "write")),
     called h MClose (io_close st).2 w).
Proof.
  intros Hws Hst. unfold with_, __enter__, __exit__. simpl.
  rewrite Hws. unfold bind. simpl.
  rewrite (invoke_called _ _ st) by assumption. simpl.
  destruct (io_close st) as [[r|e] st']; reflexivity.
Qed.

(** X10: the constructor does not check that what it wraps is a stream
    object; plain data that is not path-like is wrapped, and the error
    comes with the first use: [read] of an integer, [write] and [__exit__]
    raise [AttributeError] for [read], [write] and [close], and leave the
    world as it is. *)
Theorem non_stream_fails_on_use (v : value) (mode : option pyobj)
    (w : World H) :
  isinstance_VALID_PATH_TYPES (PyVal v) = false ->
  exists s : SeaStream,
    __init__ os_open (PyVal v) mode w = (Returns s, w) /\
    (forall n : pyobj,
       isinstance_int n = true ->
       read s (Some n) w = (Raises (AttributeError "read"), w)) /\
    (forall obj : pyobj,
       write bytes_has_dunder s obj w = (Raises (AttributeError "write"), w)) /\
    (forall exc : option exn,
       __exit__ s exc w = (Raises (AttributeError "close"), w)).
Proof.
  intros Hpath. eexists. split.
  - unfold __init__. rewrite Hpath. reflexivity.
  - repeat split.
    + intros n Hint. unfold read. simpl. rewrite Hint. reflexivity.
    + intros obj. unfold write. simpl.
      by destruct (hasattr___bytes__ bytes_has_dunder obj).
Qed.

(** X11: a stream constructed from a path and used as the manager of a
    [with] statement whose block calls nothing: all in all [open] is called
    once, and [close] once, on the stream object [open] returned; that
    object is left as [close] leaves it, and the objects that were there
    before are as they were. *)
Theorem with_path_opens_and_closes (base : pyobj) (mode : option pyobj)
    (s : SeaStream) (w w1 : World H) :
  isinstance_VALID_PATH_TYPES base = true ->
  __init__ os_open base mode w = (Returns s, w1) ->
  let mode' := default (PyVal (VStr "rb")) mode in
  exists st0 : H,
    os_open base mode' = Returns st0 /\
    with_ s (fun _ => ret tt) w1 =
      (result_bind (io_close st0).1 (fun _ => Returns tt),
       {| store := store w ++ [(io_close st0).2];
          trace := trace w ++ [EvOpen base mode';
                               EvCall (length (store w)) MClose] |}).
Proof.
  intros Hpath Hinit mode'. unfold __init__ in Hinit. fold mode' in Hinit.
  rewrite Hpath in Hinit.
  destruct (isinstance_str mode') as [m|]; [|discriminate].
  destruct (str_in "b" m); simpl in Hinit; [|discriminate].
  unfold bind, py_open in Hinit.
  destruct (os_open base mode') as [st0|e]; [|discriminate].
  injection Hinit as <- <-. exists st0. split; [reflexivity|].
  unfold with_, __enter__, __exit__, ret, bind. simpl.
  rewrite (invoke_called _ _ st0)
    by (simpl; rewrite lookup_app_r by lia; by rewrite Nat.sub_diag).
  unfold called. simpl.
  rewrite insert_app_r_alt by lia. rewrite Nat.sub_diag. simpl.
  rewrite <- app_assoc. simpl.
  destruct (io_close st0) as [[r|e] st']; reflexivity.
Qed.

End Further.

(** * Further properties on an in-memory stream *)




(** A raw [read] returns as many bytes as it takes. *)
Lemma read_length (size : Z) (p : nat) (old : bytes) :
  let k := BytesIO.clamp size (Z.of_nat (length old) - Z.of_nat p) in
  length (take k (drop p old)) = k.
Proof.
  intros k. rewrite length_take, length_drop.
  pose proof (clamp_le size (Z.of_nat (length old) - Z.of_nat p)) as Hle.
  fold k in Hle. lia.
Qed.

Section FurtherBytesIO.

Variable bytes_has_dunder : bool.

(** X12: when [from_bytes] raises on the bytes that were read, [read]
    raises that exception and the bytes stay consumed: the raw [read] was
    made and the position is behind the [N] bytes. *)
Theorem failed_decode_consumes (self : SeaStream) (h : nat)
    (st : BytesIO.t) (c : pyclass) (decode : value -> result pyobj)
    (s : Struct) (N : nat) (e : exn) (w : World BytesIO.t) :
  from_bytes c = Some decode ->
  _struct c = Some s ->
  size s = Some (VInt (Z.of_nat N)) ->
  wrapped_stream self = PyStream h ->
  store w !! h = Some st ->
  BytesIO.closed st = false ->
  (BytesIO.pos st + N <= length (BytesIO.buf st))%nat ->
  decode (VBytes (take N (drop (BytesIO.pos st) (BytesIO.buf st)))) =
    Raises e ->
  read self (Some (PyType c)) w =
    (Raises e,
     called h (MRead (PyVal (VInt (Z.of_nat N))))
       {| BytesIO.buf := BytesIO.buf st;
          BytesIO.pos := BytesIO.pos st + N;
          BytesIO.closed := false;
          BytesIO.exports := BytesIO.exports st |} w).
Proof.
  intros Hfb Hstruct Hsize Hws Hst Hopen Hleft Hdec. unfold read. simpl.
  rewrite Hfb, Hws, Hstruct. unfold bind, getattr_size. simpl.
  rewrite Hsize. simpl. rewrite (invoke_called _ _ st) by assumption.
  simpl. unfold BytesIO.read, BytesIO.as_size.
  rewrite fits_index_buffer by lia. rewrite Hopen. simpl.
  rewrite clamp_exact by lia. rewrite Nat2Z.id. unfold lift.
  by rewrite Hdec.
Qed.


(** X14: two [read]s in a row of integers that fit into an index make the
    two raw calls and nothing else, and the bytes of the second follow
    those of the first in the buffer: taken together they are one slice
    from the position on, with no byte lost and none read twice. *)
Theorem consecutive_reads_are_contiguous (self : SeaStream) (h : nat)
    (st : BytesIO.t) (n1 n2 : Z) (w : World BytesIO.t) :
  wrapped_stream self = PyStream h ->
  store w !! h = Some st ->
  BytesIO.closed st = false ->
  fits_ssize_t n1 = true ->
  fits_ssize_t n2 = true ->
  let first := read self (Some (PyVal (VInt n1))) w in
  let second := read self (Some (PyVal (VInt n2))) first.2 in
  exists bs1 bs2 : bytes,
    first.1 = Returns (PyVal (VBytes bs1)) /\
    second.1 = Returns (PyVal (VBytes bs2)) /\
    (bs1 ++ bs2)%list =
      take (length bs1 + length bs2)
        (drop (BytesIO.pos st) (BytesIO.buf st)) /\
    trace second.2 =
      (trace w ++ [EvCall h (MRead (PyVal (VInt n1)));
                   EvCall h (MRead (PyVal (VInt n2)))])%list.
Proof.
  intros Hws Hst Hopen Hfit1 Hfit2 first second.
  pose proof (lookup_lt_Some _ _ _ Hst) as Hlt.
  set (len := Z.of_nat (length (BytesIO.buf st))).
  set (k1 := BytesIO.clamp n1 (len - Z.of_nat (BytesIO.pos st))).
  set (st1 := {| BytesIO.buf := BytesIO.buf st;
                 BytesIO.pos := BytesIO.pos st + k1;
                 BytesIO.closed := false;
                 BytesIO.exports := BytesIO.exports st |}).
  set (k2 := BytesIO.clamp n2 (len - Z.of_nat (BytesIO.pos st + k1))).
  assert (Hfirst :
            first =
              (Returns (PyVal (VBytes
                 (take k1 (drop (BytesIO.pos st) (BytesIO.buf st))))),
               called h (MRead (PyVal (VInt n1))) st1 w)).
  { subst first. unfold read. simpl. rewrite Hws. unfold bind. simpl.
    rewrite (invoke_called _ _ st) by assumption. simpl.
    unfold BytesIO.read, BytesIO.as_size.
    rewrite fits_index_ssize_t by assumption. by rewrite Hopen. }
  assert (Hsecond :
            second =
              (Returns (PyVal (VBytes
                 (take k2 (drop (BytesIO.pos st + k1) (BytesIO.buf st))))),
               called h (MRead (PyVal (VInt n2)))
                 {| BytesIO.buf := BytesIO.buf st;
                    BytesIO.pos := BytesIO.pos st + k1 + k2;
                    BytesIO.closed := false;
                    BytesIO.exports := BytesIO.exports st |}
                 (called h (MRead (PyVal (VInt n1))) st1 w))).
  { subst second. rewrite Hfirst. unfold read. simpl. rewrite Hws.
    unfold bind. simpl.
    rewrite (invoke_called _ _ st1)
      by (simpl; by rewrite list_lookup_insert_eq).
    simpl. unfold BytesIO.read, BytesIO.as_size.
    rewrite fits_index_ssize_t by assumption. reflexivity. }
  eexists _, _. split; [by rewrite Hfirst|]. split; [by rewrite Hsecond|].
  split.
  - subst k1 k2 len. rewrite !read_length.
    rewrite <- (drop_drop (BytesIO.buf st) _ (BytesIO.pos st)).
    apply take_take_drop.
  - rewrite Hsecond. simpl. by rewrite <- app_assoc.
Qed.

(** X15: after the scope of a stream over an in-memory stream was left,
    the stream is of no use any more: [__exit__] returned [None], and a
    [read] of a boolean or of an integer that fits into an index, or a
    [write] of a bytes object, raises the [ValueError] of a closed file; a
    [read] of an integer that does not fit raises the [OverflowError] of
    the conversion, which comes first; leaving the scope once more closes
    again and raises nothing. *)
Theorem use_after_exit_fails (self : SeaStream) (h : nat) (st : BytesIO.t)
    (exc : option exn) (w : World BytesIO.t) :
  wrapped_stream self = PyStream h ->
  store w !! h = Some st ->
  BytesIO.exports st = 0%nat ->
  let left := __exit__ self exc w in
  left.1 = Returns VNone /\
  (forall v : bool,
     (read self (Some (PyVal (VBool v))) left.2).1 =
       Raises BytesIO.closed_error) /\
  (forall n : Z,
     (read self (Some (PyVal (VInt n))) left.2).1 =
       Raises (if fits_ssize_t n then BytesIO.closed_error
               else index_error)) /\
  (forall bs : bytes,
     (write bytes_has_dunder self (PyVal (VBytes bs)) left.2).1 =
       Raises BytesIO.closed_error) /\
  (forall exc' : option exn, (__exit__ self exc' left.2).1 = Returns VNone).
Proof.
  intros Hws Hst Hexp left.
  pose proof (lookup_lt_Some _ _ _ Hst) as Hlt.
  set (st1 := {| BytesIO.buf := []; BytesIO.pos := BytesIO.pos st;
                 BytesIO.closed := true; BytesIO.exports := 0 |}).
  assert (Hleft : left = (Returns VNone, called h MClose st1 w)).
  { subst left. unfold __exit__. rewrite Hws. unfold bind. simpl.
    rewrite (invoke_called _ _ st) by assumption. simpl.
    unfold BytesIO.close. rewrite Hexp. reflexivity. }
  assert (Hst1 : store (called h MClose st1 w) !! h = Some st1)
    by (simpl; by rewrite list_lookup_insert_eq).
  rewrite Hleft. simpl. split; [reflexivity|]. split; [|split; [|split]].
  - intros v. unfold read. simpl. rewrite Hws.
    unfold bind. simpl. rewrite (invoke_called _ _ st1) by assumption.
    reflexivity.
  - intros n. unfold read. simpl. rewrite Hws.
    unfold bind. simpl. rewrite (invoke_called _ _ st1) by assumption.
    simpl. unfold BytesIO.read, BytesIO.as_size.
    replace (BytesIO.index_limit st1) with PY_SSIZE_T_MAX
      by (unfold BytesIO.index_limit; simpl;
          pose proof PY_SSIZE_T_MAX_pos; lia).
    fold (fits_ssize_t n). by destruct (fits_ssize_t n).
  - intros bs. unfold write.
    destruct (hasattr___bytes__ bytes_has_dunder (PyVal (VBytes bs)));
      rewrite Hws; unfold bind, lift; simpl;
      rewrite (invoke_called _ _ st1) by assumption; reflexivity.
  - intros exc'. unfold __exit__. rewrite Hws. unfold bind. simpl.
    rewrite (invoke_called _ _ st1) by assumption. reflexivity.
Qed.

End FurtherBytesIO.

(** ** The further properties at objects of the test suite *)

(** X1 at [SeaStream(5, mode=3)]. *)
Lemma init_wraps_non_path_witness :
  __init__ Examples.open_empty (PyVal (VInt 5)) (Some (PyVal (VInt 3)))
    (Examples.world_of []) =
    (Returns {| _opened_stream := false; wrapped_stream := PyVal (VInt 5) |},
     Examples.world_of []).
Proof.
  exact (init_wraps_non_path Examples.open_empty (PyVal (VInt 5))
           (Some (PyVal (VInt 3))) (Examples.world_of []) eq_refl).
Defined.

(** X2 at [SeaStream("/foo")]. *)
Lemma init_default_mode_witness :
  __init__ Examples.open_empty (PyVal (VStr "/foo")) None
    (Examples.world_of []) =
    (Returns {| _opened_stream := true; wrapped_stream := PyStream 1 |},
     opened (PyVal (VStr "/foo")) (PyVal (VStr "rb")) [BytesIO.make []]
       (Examples.world_of [])).
Proof.
  exact (init_default_mode Examples.open_empty (PyVal (VStr "/foo"))
           (Examples.world_of []) eq_refl).
Defined.

(** X6 at [write(Broken())]. *)
Lemma write_render_failure_witness :
  write false Examples.stream (PyInstance Examples.Broken VNone)
    (Examples.world_of (b "abc")) =
    (Raises (TypeError "__bytes__ returned non-bytes (type str)"),
     Examples.world_of (b "abc")).
Proof.
  exact (write_render_failure false Examples.stream 0
           (PyInstance Examples.Broken VNone) _
           (Examples.world_of (b "abc")) eq_refl eq_refl eq_refl).
Defined.

(** X9 at [with SeaStream(raw) as s: s.write(b"x")]. *)
Lemma with_target_is_None_witness :
  with_ Examples.stream
    (fun target =>
       _ <- target_write target (PyVal (VBytes (b "x"))) ;; ret tt)
    (Examples.world_of (b "abc")) =
    (Raises (AttributeError "write"),
     {| store := [{| BytesIO.buf := []; BytesIO.pos := 0;
                     BytesIO.closed := true; BytesIO.exports := 0 |}];
        trace := [EvCall 0 MClose] |}).
Proof.
  exact (with_target_is_None Examples.stream 0 (BytesIO.make (b "abc"))
           (PyVal (VBytes (b "x"))) (Examples.world_of (b "abc"))
           eq_refl eq_refl).
Defined.

(** X10 at [SeaStream(5)]. *)
Lemma non_stream_fails_on_use_witness :
  exists s : SeaStream,
    __init__ Examples.open_empty (PyVal (VInt 5)) None
      (Examples.world_of []) = (Returns s, Examples.world_of []) /\
    (forall n : pyobj,
       isinstance_int n = true ->
       read s (Some n) (Examples.world_of []) =
         (Raises (AttributeError "read"), Examples.world_of [])) /\
    (forall obj : pyobj,
       write false s obj (Examples.world_of []) =
         (Raises (AttributeError "write"), Examples.world_of [])) /\
    (forall exc : option exn,
       __exit__ s exc (Examples.world_of []) =
         (Raises (AttributeError "close"), Examples.world_of [])).
Proof.
  exact (non_stream_fails_on_use Examples.open_empty false (VInt 5) None
           (Examples.world_of []) eq_refl).
Defined.

(** X11 at [with SeaStream("/foo"): pass]. *)
Lemma with_path_opens_and_closes_witness :
  exists st0 : BytesIO.t,
    Examples.open_empty (PyVal (VStr "/foo")) (PyVal (VStr "rb")) =
      Returns st0 /\
    with_ {| _opened_stream := true; wrapped_stream := PyStream 1 |}
      (fun _ => ret tt)
      (opened (PyVal (VStr "/foo")) (PyVal (VStr "rb")) [BytesIO.make []]
         (Examples.world_of [])) =
      (result_bind (io_close st0).1 (fun _ => Returns tt),
       {| store := [BytesIO.make []; (io_close st0).2];
          trace := [EvOpen (PyVal (VStr "/foo")) (PyVal (VStr "rb"));
                    EvCall 1 MClose] |}).
Proof.
  exact (with_path_opens_and_closes Examples.open_empty
           (PyVal (VStr "/foo")) None _ (Examples.world_of []) _
           eq_refl eq_refl).
Defined.

(** X12 at [read(Strict)] on [BytesIO(b"abcdef")]. *)
Lemma failed_decode_consumes_witness :
  read Examples.stream (Some (PyType Examples.Strict))
    (Examples.world_of (b "abcdef")) =
    (Raises (ValueError "bad record"),
     {| store := [{| BytesIO.buf := b "abcdef"; BytesIO.pos := 3;
                     BytesIO.closed := false; BytesIO.exports := 0 |}];
        trace := [EvCall 0 (MRead (PyVal (VInt 3)))] |}).
Proof.
  exact (failed_decode_consumes Examples.stream 0 (BytesIO.make (b "abcdef"))
           Examples.Strict _ _ 3 _ (Examples.world_of (b "abcdef"))
           eq_refl eq_refl eq_refl eq_refl eq_refl eq_refl
           (le_S _ _ (le_S _ _ (le_S _ _ (le_n 3)))) eq_refl).
Defined.


(** X14 at [read(2)] and [read(3)] on [BytesIO(b"abcdef")]. *)
Lemma consecutive_reads_are_contiguous_witness :
  let first :=
    read Examples.stream (Some (PyVal (VInt 2)))
      (Examples.world_of (b "abcdef")) in
  let second := read Examples.stream (Some (PyVal (VInt 3))) first.2 in
  exists bs1 bs2 : bytes,
    first.1 = Returns (PyVal (VBytes bs1)) /\
    second.1 = Returns (PyVal (VBytes bs2)) /\
    (bs1 ++ bs2)%list = take (length bs1 + length bs2) (drop 0 (b "abcdef")) /\
    trace second.2 =
      [EvCall 0 (MRead (PyVal (VInt 2))); EvCall 0 (MRead (PyVal (VInt 3)))].
Proof.
  exact (consecutive_reads_are_contiguous Examples.stream 0
           (BytesIO.make (b "abcdef")) 2 3 (Examples.world_of (b "abcdef"))
           eq_refl eq_refl eq_refl eq_refl eq_refl).
Defined.

(** X15 at a stream over [BytesIO(b"abc")]. *)
Lemma use_after_exit_fails_witness :
  let left := __exit__ Examples.stream None (Examples.world_of (b "abc")) in
  left.1 = Returns VNone /\
  (forall v : bool,
     (read Examples.stream (Some (PyVal (VBool v))) left.2).1 =
       Raises BytesIO.closed_error) /\
  (forall n : Z,
     (read Examples.stream (Some (PyVal (VInt n))) left.2).1 =
       Raises (if fits_ssize_t n then BytesIO.closed_error
               else index_error)) /\
  (forall bs : bytes,
     (write false Examples.stream (PyVal (VBytes bs)) left.2).1 =
       Raises BytesIO.closed_error) /\
  (forall exc' : option exn,
     (__exit__ Examples.stream exc' left.2).1 = Returns VNone).
Proof.
  exact (use_after_exit_fails false Examples.stream 0 (BytesIO.make (b "abc"))
           None (Examples.world_of (b "abc")) eq_refl eq_refl eq_refl).
Defined.
